(** * generate_embeddings.py: the embedding client and the embedding store

    A shallow embedding of [src/generate_embeddings.py].

    - Python values are the inductive [value]: what [json] can write and
      read back.
    - Exceptions are the inductive [exn]; a call returns a [result].
    - [cosine_similarity] is written over the arithmetic it uses
      ([+], [*], [/], [** 0.5], [== 0]), the way the duck-typed source is,
      and run at [binary64], the IEEE 754 doubles of a Python [float].
    - The functions that touch the outside world ([generate_embedding],
      [save_embedding], [load_embedding], [embed_file]) run in a state and
      exception monad [io] over a [world]: the files, the requests sent so
      far and the lines printed on [sys.stderr].
    - What the source takes from outside the module is a variable of the
      section [Module_]: [os.environ], the [json] codec, the provider
      behind [urlopen], and [pathlib]'s rendering of a path. *)

From Stdlib Require Import ZArith List Lia.
From Stdlib Require Import Floats.SpecFloat.
From stdpp Require Import gmap strings pretty.

(** * Python floats: IEEE 754 binary64 *)

Definition prec : Z := 53.
Definition emax : Z := 1024.

Definition float : Type := spec_float.

(** The double nearest to an integer, as [float(z)] gives it. *)
Definition of_Z (z : Z) : float := binary_normalize prec emax z 0 false.

(** * Python values *)

#[warnings="-register-all"]
Inductive value :=
| VNone
| VBool (b : bool)
| VInt (n : Z)
| VFloat (x : float)
| VStr (s : string)
| VList (l : list value)
| VDict (d : gmap string value).

(** [len(v)]; [None] where Python raises [TypeError]. *)
Definition len (v : value) : option nat :=
  match v with
  | VStr s => Some (String.length s)
  | VList l => Some (length l)
  | VDict d => Some (size d)
  | _ => None
  end.

(** [key in v] for a string [key]; [None] where Python raises [TypeError]. *)
Definition contains (key : string) (v : value) : option bool :=
  match v with
  | VDict d => Some (bool_decide (is_Some (d !! key)))
  | VList l =>
      Some (existsb (fun x => match x with
                              | VStr s => String.eqb s key
                              | _ => false
                              end) l)
  | VStr s => Some (match String.index 0 key s with Some _ => true | None => false end)
  | _ => None
  end.

(** [v[key]] for a string [key]; [None] where Python raises ([KeyError] on a
    dict without the key, [TypeError] on everything else). *)
Definition subscript (v : value) (key : string) : option value :=
  match v with
  | VDict d => d !! key
  | _ => None
  end.

(** [metadata or {}]: [None] and the empty dict are both falsy. *)
Definition or_empty (metadata : option (gmap string value)) : gmap string value :=
  match metadata with
  | Some d => if bool_decide (size d ≠ 0) then d else ∅
  | None => ∅
  end.

(** A list of floats as the Python list it is. *)
Definition vector (v : list float) : value := VList (VFloat <$> v).

(** * Exceptions and results *)

(** What went wrong inside the [try] block of [generate_embedding]; the
    source wraps each of them as
    [Exception(f'Failed to generate embedding: {str(e)}')]. *)
Inductive cause :=
| UnexpectedFormat (data : value)    (* 'Unexpected API response format: {data}' *)
| Undecodable                        (* json.loads on the response body *)
| BadOperand                         (* [in] or [[]] on a value without it *)
| Transport (reason : string).       (* urlopen could not reach the provider *)

Inductive exn :=
| ValueError (msg : string)
| ZeroDivisionError
| TypeError
| AttributeError
| FileNotFoundError (msg : string)
| JSONDecodeError
| ApiError (code : Z) (error_text : string)
    (* Exception(f'Embedding API error: HTTP {e.code} - {error_text}') *)
| GenerateFailed (c : cause).

Inductive result (A : Type) :=
| Ok (a : A)
| Raise (e : exn).
Arguments Ok {A} a.
Arguments Raise {A} e.

(** * Arithmetic *)

(** The operations [cosine_similarity] applies to the entries of its
    arguments. *)
Class Number (T : Type) := {
  num_zero : T;                 (* the [0] that [sum] starts from, and [0.0] *)
  num_add : T -> T -> T;        (* a + b *)
  num_mul : T -> T -> T;        (* a * b *)
  num_div : T -> T -> T;        (* a / b, for b that is not zero *)
  num_pow_half : T -> T;        (* a ** 0.5, for a that is not negative *)
  num_eq_zero : T -> bool       (* a == 0 *)
}.

(** [x ** 0.5] is taken to be the correctly rounded square root; its
    argument here is a sum of squares: [+0.0], positive, [inf] or [nan].
    CPython computes it with the [pow] of the C library, which agrees with
    the square root at [0.0], [inf] and [nan] and at the arguments
    evaluated below ([3.0], [5.0], [25.0]), and can differ from it in the
    last bit elsewhere ([3541.0 ** 0.5]). *)
#[export] Instance binary64 : Number float := {
  num_zero := S754_zero false;
  num_add := SFadd prec emax;
  num_mul := SFmul prec emax;
  num_div := SFdiv prec emax;
  num_pow_half := SFsqrt prec emax;
  num_eq_zero := fun x => SFeqb x (S754_zero false)
}.

(** * Similarity *)

Section Similarity.
Context {T : Type} `{Number T}.

(** [sum(xs)]: left to right, starting from [0].  (CPython from 3.12 on
    also carries a compensation term through a sum of floats; the two agree
    whenever the partial sums are exact, as they are in every concrete
    evaluation below.) *)
Definition sum (xs : list T) : T := fold_left num_add xs num_zero.

(** [a / b]: Python raises on a zero divisor. *)
Definition truediv (a b : T) : result T :=
  if num_eq_zero b then Raise ZeroDivisionError else Ok (num_div a b).

(** [sum(a * a for a in embedding) ** 0.5], the norm the source computes
    for each argument. *)
Definition magnitude (embedding : list T) : T :=
  num_pow_half (sum (map (fun a => num_mul a a) embedding)).

Definition cosine_similarity (embedding1 embedding2 : list T) : result T :=
  if negb (length embedding1 =? length embedding2)%nat then
    Raise (ValueError "Embeddings must have same dimension")
  else
    let dot_product :=
      sum (map (fun '(a, b) => num_mul a b) (zip embedding1 embedding2)) in
    let magnitude1 := num_pow_half (sum (map (fun a => num_mul a a) embedding1)) in
    let magnitude2 := num_pow_half (sum (map (fun b => num_mul b b) embedding2)) in
    if num_eq_zero magnitude1 || num_eq_zero magnitude2 then
      Ok num_zero
    else
      truediv dot_product (num_mul magnitude1 magnitude2).
End Similarity.

(** * The outside world *)

(** What [urllib.request.Request] carries. *)
Record request := {
  url : string;
  data : string;
  headers : list (string * string);
  method : string
}.

(** What [urlopen] comes back with: a response body, [HTTPError] for a
    status outside 2xx, or a failure to reach the provider.  Bodies are
    the decoded text: a body that is not UTF-8, for which
    [.decode('utf-8')] raises, is not a reply of the model. *)
Inductive reply :=
| Response (body : string)
| HTTPError (code : Z) (body : string)
| Unreachable (reason : string).

(** Files by path, requests in the order they were sent, lines printed on
    [sys.stderr].  A path is the string the source passes to [open]; the
    directory tree is not modelled: two strings that name one file, a
    path that names a directory, and the directories [mkdir] creates are
    outside the map. *)
Record world := {
  files : gmap string string;
  requests : list request;
  stderr : list string
}.

Definition io (A : Type) : Type := world -> result A * world.

#[export] Instance io_ret : MRet io := fun A a w => (Ok a, w).

#[export] Instance io_bind : MBind io := fun A B f m w =>
  match m w with
  | (Ok a, w') => f a w'
  | (Raise e, w') => (Raise e, w')
  end.

Definition raise {A : Type} (e : exn) : io A := fun w => (Raise e, w).

(** [try: m except Exception as e: raise h(e)] *)
Definition reraise {A : Type} (h : exn -> exn) (m : io A) : io A := fun w =>
  match m w with
  | (Ok a, w') => (Ok a, w')
  | (Raise e, w') => (Raise (h e), w')
  end.

(** [Path(path).exists()] *)
Definition exists_ (path : string) : io bool := fun w =>
  (Ok (bool_decide (is_Some (files w !! path))), w).

(** [open(path, 'r').read()] and [Path(path).read_text()] *)
Definition read_text (path : string) : io string := fun w =>
  match files w !! path with
  | Some text => (Ok text, w)
  | None =>
      (Raise (FileNotFoundError
                ("[Errno 2] No such file or directory: '" +:+ path +:+ "'")), w)
  end.

(** [open(path, 'w').write(text)]: creates or overwrites. *)
Definition write_text (path text : string) : io unit := fun w =>
  (Ok tt, {| files := <[path := text]> (files w);
             requests := requests w;
             stderr := stderr w |}).

(** [print(line, file=sys.stderr)] *)
Definition print_stderr (line : string) : io unit := fun w =>
  (Ok tt, {| files := files w;
             requests := requests w;
             stderr := stderr w ++ [line] |}).

(** * The module *)

Section Module_.
(** [os.environ] when the module is imported. *)
Variable environ : gmap string string.
(** [json.dumps(obj, indent=indent)], also behind [json.dump]. *)
Variable json_dumps : option nat -> value -> string.
(** [json.loads(text)], also behind [json.load]; [None]: the text is not
    valid JSON. *)
Variable json_loads : string -> option value.
(** The provider: what [urlopen] gets for a request. *)
Variable provider : request -> reply.
(** [str(Path(path))] *)
Variable path_str : string -> string.

(** ** Configuration *)

Definition GEMINI_API_KEY : option string := environ !! "GEMINI_API_KEY".

Definition EMBEDDING_MODEL : string :=
  default "models/text-embedding-004" (environ !! "EMBEDDING_MODEL").

(** ** Embedding client *)

(** [urllib.request.urlopen(req)]: the request goes out, the reply
    comes back. *)
Definition urlopen (req : request) : io reply := fun w =>
  (Ok (provider req), {| files := files w;
                         requests := requests w ++ [req];
                         stderr := stderr w |}).

(** The body of [with urlopen(req) as response: ...] once the response
    is parsed: [data['embedding']['values']] when both keys are there. *)
Definition embedding_values (data : value) : result value :=
  match contains "embedding" data with
  | None => Raise TypeError
  | Some false => Raise (GenerateFailed (UnexpectedFormat data))
  | Some true =>
      match subscript data "embedding" with
      | None => Raise TypeError
      | Some embedding =>
          match contains "values" embedding with
          | None => Raise TypeError
          | Some false => Raise (GenerateFailed (UnexpectedFormat data))
          | Some true =>
              match subscript embedding "values" with
              | None => Raise TypeError
              | Some values => Ok values
              end
          end
      end
  end.

(** The two [except] clauses: an [HTTPError] becomes [ApiError], every
    other exception raised in the [try] block is wrapped. *)
Definition wrap (e : exn) : exn :=
  match e with
  | GenerateFailed c => GenerateFailed c
  | JSONDecodeError => GenerateFailed Undecodable
  | _ => GenerateFailed BadOperand
  end.

Definition generate_embedding (text task_type : string) : io value :=
  match GEMINI_API_KEY with
  | None | Some "" =>
      raise (ValueError "GEMINI_API_KEY environment variable not set")
  | Some key =>
      let api_url :=
        "https://generativelanguage.googleapis.com/v1beta/" +:+ EMBEDDING_MODEL
        +:+ ":embedContent?key=" +:+ key in
      let request_data :=
        VDict {[ "model" := VStr EMBEDDING_MODEL;
                 "content" := VDict {[ "parts" :=
                                VList [VDict {[ "text" := VStr text ]}] ]};
                 "taskType" := VStr task_type ]} in
      let req := {| url := api_url;
                    data := json_dumps None request_data;
                    headers := [("Content-Type", "application/json")];
                    method := "POST" |} in
      response ← urlopen req;
      match response with
      | HTTPError code error_text => raise (ApiError code error_text)
      | Unreachable reason => raise (GenerateFailed (Transport reason))
      | Response body =>
          reraise wrap
            (match json_loads body with
             | None => raise JSONDecodeError
             | Some data => fun w => (embedding_values data, w)
             end)
      end
  end.

(** ** Embedding store *)

(** The dict [save_embedding] hands to [json.dump]. *)
Definition output_data (embedding : value) (dimension : nat)
    (metadata : option (gmap string value)) : gmap string value :=
  {[ "embedding" := embedding;
     "dimension" := VInt (Z.of_nat dimension);
     "model" := VStr EMBEDDING_MODEL;
     "metadata" := VDict (or_empty metadata) ]}.

Definition save_embedding (embedding : value) (output_path : string)
    (metadata : option (gmap string value)) : io unit :=
  match len embedding with
  | None => raise TypeError
  | Some dimension =>
      write_text output_path
        (json_dumps (Some 2) (VDict (output_data embedding dimension metadata)))
  end.

(** [data.get(key, default)] *)
Definition get (data : value) (key : string) (default_ : value) : io value :=
  match data with
  | VDict d => mret (default default_ (d !! key))
  | _ => raise AttributeError
  end.

Definition load_embedding (input_path : string) : io (value * value) :=
  text ← read_text input_path;
  match json_loads text with
  | None => raise JSONDecodeError
  | Some data =>
      embedding ← get data "embedding" (VList []);
      metadata ← get data "metadata" (VDict ∅);
      mret (embedding, metadata)
  end.

(** ** File-to-file pipeline *)

(** [text[:200] + ('...' if len(text) > 200 else '')] *)
Definition text_preview (text : string) : string :=
  String.substring 0 200 text
  +:+ (if (200 <? String.length text)%nat then "..." else "").

Definition embed_file (input_path output_path task_type : string) : io unit :=
  present ← exists_ input_path;
  if negb present then
    raise (FileNotFoundError ("Input file not found: " +:+ input_path))
  else
    text ← read_text input_path;
    print_stderr ("Generating embedding for " +:+ input_path +:+ "...");;
    embedding ← generate_embedding text task_type;
    let metadata : gmap string value :=
      {[ "source_file" := VStr (path_str input_path);
         "text_length" := VInt (Z.of_nat (String.length text));
         "text_preview" := VStr (text_preview text) ]} in
    save_embedding embedding output_path (Some metadata);;
    print_stderr ("Saved embedding to " +:+ output_path);;
    match len embedding with
    | None => raise TypeError
    | Some n => print_stderr ("Embedding dimension: " +:+ pretty n)
    end.
End Module_.

(** * Vocabulary of the properties *)

(** [m * 2 ** e] rounded to the nearest double, as [math.ldexp(m, e)]. *)
Definition ldexp (m e : Z) : float := binary_normalize prec emax m e false.

(** Every entry is [0.0] or [-0.0]. *)
Definition all_zero (a : list float) : bool :=
  forallb (fun x => match x with S754_zero _ => true | _ => false end) a.

(** ** Concrete inputs *)

(** [[1.0, 1.0, 1.0]] *)
Definition ones : list float := [of_Z 1; of_Z 1; of_Z 1].

(** A codec that knows one document: [text] is the JSON text of [doc]. *)
Definition dumps_of (text : string) : option nat -> value -> string :=
  fun _ _ => text.
Definition loads_of (text : string) (doc : value) : string -> option value :=
  fun s => if String.eqb s text then Some doc else None.

(** No file, no request sent, nothing printed. *)
Definition empty_world : world := {| files := ∅; requests := []; stderr := [] |}.

(** A provider that cannot be reached. *)
Definition provider_down : request -> reply := fun _ => Unreachable "timed out".

(** * The command line *)

Section Cli.
Variable environ : gmap string string.
Variable json_dumps : option nat -> value -> string.
Variable json_loads : string -> option value.
Variable provider : request -> reply.
Variable path_str : string -> string.
(** [str(data)] of a parsed response, as the f-string of the
    unexpected-format message writes it. *)
Variable py_repr : value -> string.
(** [str(e)] for the exceptions whose message the interpreter or the
    [json] library writes. *)
Variable str_builtin : exn -> string.

(** [str(e)] of the exception behind [GenerateFailed]; a transport failure
    carries its own message. *)
Definition str_cause (c : cause) : string :=
  match c with
  | UnexpectedFormat data => "Unexpected API response format: " +:+ py_repr data
  | Undecodable => str_builtin JSONDecodeError
  | BadOperand => str_builtin TypeError
  | Transport reason => reason
  end.

(** [str(e)], as [f'Error: {e}'] writes it. *)
Definition str_exn (e : exn) : string :=
  match e with
  | ValueError msg => msg
  | FileNotFoundError msg => msg
  | ApiError code error_text =>
      "Embedding API error: HTTP " +:+ pretty code +:+ " - " +:+ error_text
  | GenerateFailed c => "Failed to generate embedding: " +:+ str_cause c
  | _ => str_builtin e
  end.

(** The lines [main] prints when arguments are missing. *)
Definition usage : list string :=
  ["Usage: ./generate_embeddings.py <input_file> <output_file> [task_type]";
   "";
   "Task types:";
   "  RETRIEVAL_DOCUMENT (default) - For embeddings stored in a database";
   "  RETRIEVAL_QUERY - For search queries";
   "  SEMANTIC_SIMILARITY - For similarity comparison";
   "  CLASSIFICATION - For text classification";
   "  CLUSTERING - For clustering texts"].

(** One [print(line, file=sys.stderr)] after the other. *)
Definition print_lines (lines : list string) : io unit :=
  foldr (fun line rest => print_stderr line;; rest) (mret tt) lines.

(** [main()] on [sys.argv]: the exit status of the process and the world
    it leaves.  [sys.exit(1)] is status 1, returning is status 0.  The
    default of [nth] is never reached: the length is tested first. *)
Definition main (argv : list string) : world -> Z * world := fun w =>
  if (length argv <? 3)%nat then
    (1%Z, snd (print_lines usage w))
  else
    let input_path := nth 1 argv "" in
    let output_path := nth 2 argv "" in
    let task_type :=
      if (3 <? length argv)%nat then nth 3 argv "" else "RETRIEVAL_DOCUMENT" in
    match embed_file environ json_dumps json_loads provider path_str
            input_path output_path task_type w with
    | (Ok _, w') => (0%Z, w')
    | (Raise e, w') => (1%Z, snd (print_stderr ("Error: " +:+ str_exn e) w'))
    end.
End Cli.

(** * Vocabulary of the further properties *)

(** The request [generate_embedding] builds for a key, a text and a task
    type. *)
Definition embed_request (environ : gmap string string)
    (json_dumps : option nat -> value -> string)
    (key text task_type : string) : request :=
  {| url := "https://generativelanguage.googleapis.com/v1beta/"
            +:+ EMBEDDING_MODEL environ +:+ ":embedContent?key=" +:+ key;
     data := json_dumps None
               (VDict {[ "model" := VStr (EMBEDDING_MODEL environ);
                         "content" := VDict {[ "parts" :=
                                        VList [VDict {[ "text" := VStr text ]}] ]};
                         "taskType" := VStr task_type ]});
     headers := [("Content-Type", "application/json")];
     method := "POST" |}.

(** The metadata [embed_file] builds for an input file. *)
Definition embed_metadata (path_str : string -> string)
    (input_path text : string) : gmap string value :=
  {[ "source_file" := VStr (path_str input_path);
     "text_length" := VInt (Z.of_nat (String.length text));
     "text_preview" := VStr (text_preview text) ]}.

(** The world after one more request. *)
Definition sent (req : request) (w : world) : world :=
  {| files := files w; requests := requests w ++ [req]; stderr := stderr w |}.

(** The world after more lines on [sys.stderr]. *)
Definition printed (lines : list string) (w : world) : world :=
  {| files := files w; requests := requests w; stderr := stderr w ++ lines |}.

(** The world after a file is written. *)
Definition written (path text : string) (w : world) : world :=
  {| files := <[path := text]> (files w);
     requests := requests w; stderr := stderr w |}.

(** What [generate_embedding] makes of the provider's reply. *)
Definition outcome (json_loads : string -> option value) (r : reply) : result value :=
  match r with
  | HTTPError code error_text => Raise (ApiError code error_text)
  | Unreachable reason => Raise (GenerateFailed (Transport reason))
  | Response body =>
      match json_loads body with
      | None => Raise (GenerateFailed Undecodable)
      | Some data =>
          match embedding_values data with
          | Ok values => Ok values
          | Raise e => Raise (wrap e)
          end
      end
  end.

(** * Properties of the embedding store *)

Section Store_properties.
Variable environ : gmap string string.
Variable json_dumps : option nat -> value -> string.
Variable json_loads : string -> option value.

Lemma len_vector (v : list float) : len (vector v) = Some (length v).
Proof. unfold vector; simpl. by rewrite length_fmap. Qed.

(** A mapping passed as metadata is written as it is: the empty one is
    replaced by a new empty one. *)
Lemma or_empty_Some (m : gmap string value) : or_empty (Some m) = m.
Proof.
  unfold or_empty. case_bool_decide as Hsize; [done|].
  symmetry. apply map_size_empty_iff. lia.
Qed.

Lemma save_embedding_vector (v : list float) (output_path : string)
    (metadata : option (gmap string value)) (w : world) :
  save_embedding environ json_dumps (vector v) output_path metadata w =
  write_text output_path
    (json_dumps (Some 2)
       (VDict (output_data environ (vector v) (length v) metadata))) w.
Proof. unfold save_embedding. by rewrite len_vector. Qed.
End Store_properties.

(** C10: for every vector and every metadata argument, [save_embedding]
    succeeds and writes at [output_path] the JSON text of a document whose
    [embedding] field is the vector and whose [dimension] field is the
    length of that vector. *)
Theorem save_embedding_dimension (environ : gmap string string)
    (json_dumps : option nat -> value -> string) (v : list float)
    (output_path : string) (metadata : option (gmap string value)) (w : world) :
  exists (doc : gmap string value) (w' : world),
    save_embedding environ json_dumps (vector v) output_path metadata w = (Ok tt, w')
    /\ files w' !! output_path = Some (json_dumps (Some 2) (VDict doc))
    /\ doc !! "embedding" = Some (vector v)
    /\ doc !! "dimension" = Some (VInt (Z.of_nat (length v))).
Proof.
  eexists _, _. rewrite save_embedding_vector. unfold write_text.
  split; [reflexivity|]. simpl. split; [apply lookup_insert_eq|].
  unfold output_data. split; by simplify_map_eq.
Qed.

(** C1: save then load.  Let the record be JSON-serializable: [json.load]
    reads the text [json.dump] wrote for it back as the same record.  Then
    [save_embedding] followed by [load_embedding] at the same path returns
    the vector and the metadata mapping that were saved.  This holds for
    every vector, the empty one included, and every mapping. *)
Theorem save_load_roundtrip (environ : gmap string string)
    (json_dumps : option nat -> value -> string)
    (json_loads : string -> option value)
    (v : list float) (m : gmap string value) (path : string) (w : world) :
  json_loads (json_dumps (Some 2)
                (VDict (output_data environ (vector v) (length v) (Some m))))
  = Some (VDict (output_data environ (vector v) (length v) (Some m))) ->
  exists w' : world,
    save_embedding environ json_dumps (vector v) path (Some m) w = (Ok tt, w')
    /\ load_embedding json_loads path w' = (Ok (vector v, VDict m), w').
Proof.
  intros Hcodec. eexists. rewrite save_embedding_vector. unfold write_text.
  split; [reflexivity|].
  unfold load_embedding, mbind, io_bind, read_text. simpl.
  rewrite lookup_insert_eq, Hcodec. unfold get, output_data. simpl.
  unfold mret, io_ret. simplify_map_eq.
  pose proof (or_empty_Some m) as Hm. simpl in Hm. by rewrite Hm.
Qed.

Lemma save_load_roundtrip_witness :
  let v := [of_Z 1; of_Z 2] in
  let m : gmap string value := {[ "source_file" := VStr "in.txt" ]} in
  let doc := VDict (output_data ∅ (vector v) (length v) (Some m)) in
  exists w' : world,
    save_embedding ∅ (dumps_of "record") (vector v) "out.json" (Some m) empty_world
      = (Ok tt, w')
    /\ load_embedding (loads_of "record" doc) "out.json" w'
      = (Ok (vector v, VDict m), w').
Proof.
  intros v m doc.
  apply (save_load_roundtrip ∅ (dumps_of "record") (loads_of "record" doc)
           v m "out.json" empty_world).
  reflexivity.
Defined.

(** C9, as stated, fails: a file that holds the valid JSON document [[]]
    makes [load_embedding] raise [AttributeError]. *)
Lemma load_embedding_not_an_object :
  let w := {| files := {[ "emb.json" := "[]" ]}; requests := []; stderr := [] |} in
  let json_loads := loads_of "[]" (VList []) in
  files w !! "emb.json" = Some "[]"
  /\ json_loads "[]" = Some (VList [])
  /\ load_embedding json_loads "emb.json" w = (Raise AttributeError, w).
Proof. vm_compute. done. Qed.

(** C9, amended: for every file that holds a valid JSON document which is
    an object, [load_embedding] returns the value under [embedding], or the
    empty list when the key is missing, and the value under [metadata], or
    the empty mapping when the key is missing; it does not fail and changes
    nothing. *)
Theorem load_embedding_lenient (json_loads : string -> option value)
    (input_path text : string) (d : gmap string value) (w : world) :
  files w !! input_path = Some text ->
  json_loads text = Some (VDict d) ->
  load_embedding json_loads input_path w =
    (Ok (default (VList []) (d !! "embedding"),
         default (VDict ∅) (d !! "metadata")), w).
Proof.
  intros Hfile Hdoc.
  unfold load_embedding, mbind, io_bind, read_text.
  by rewrite Hfile, Hdoc.
Qed.

Lemma load_embedding_lenient_witness :
  let d : gmap string value := {[ "embedding" := vector [of_Z 1] ]} in
  let w := {| files := {[ "emb.json" := "record" ]}; requests := []; stderr := [] |} in
  load_embedding (loads_of "record" (VDict d)) "emb.json" w =
    (Ok (vector [of_Z 1], VDict ∅), w).
Proof.
  intros d w.
  apply (load_embedding_lenient (loads_of "record" (VDict d)) "emb.json" "record" d w);
    reflexivity.
Defined.

(** * Properties of the embedding client and of the pipeline *)

(** C7, as stated, fails: the key is not read from [API_KEY].  With
    [GEMINI_API_KEY] set and [API_KEY] absent, [generate_embedding] raises
    no configuration error and sends a request; with [API_KEY] set and
    [GEMINI_API_KEY] absent it raises the configuration error. *)
Lemma generate_embedding_ignores_API_KEY :
  let environ : gmap string string := {[ "GEMINI_API_KEY" := "secret" ]} in
  let environ' : gmap string string := {[ "API_KEY" := "secret" ]} in
  let run (e : gmap string string) :=
    generate_embedding e (dumps_of "body") (loads_of "" VNone) provider_down
      "hello world" "RETRIEVAL_DOCUMENT" empty_world in
  environ !! "API_KEY" = None
  /\ fst (run environ) = Raise (GenerateFailed (Transport "timed out"))
  /\ url <$> requests (snd (run environ)) =
       ["https://generativelanguage.googleapis.com/v1beta/models/text-embedding-004:embedContent?key=secret"]
  /\ run environ' =
       (Raise (ValueError "GEMINI_API_KEY environment variable not set"),
        empty_world).
Proof. vm_compute. done. Qed.

(** C7, amended: the credential is read from the environment variable
    [GEMINI_API_KEY]; whenever it is absent or empty, [generate_embedding]
    raises the configuration error and leaves the world as it was: no
    request has been sent. *)
Theorem generate_embedding_missing_key (environ : gmap string string)
    (json_dumps : option nat -> value -> string)
    (json_loads : string -> option value) (provider : request -> reply)
    (text task_type : string) (w : world) :
  environ !! "GEMINI_API_KEY" = None \/ environ !! "GEMINI_API_KEY" = Some "" ->
  generate_embedding environ json_dumps json_loads provider text task_type w
  = (Raise (ValueError "GEMINI_API_KEY environment variable not set"), w).
Proof.
  intros Hkey. unfold generate_embedding, GEMINI_API_KEY.
  by destruct Hkey as [-> | ->].
Qed.

Lemma generate_embedding_missing_key_witness :
  generate_embedding ∅ (dumps_of "body") (loads_of "" VNone) provider_down
    "hello world" "RETRIEVAL_DOCUMENT" empty_world
  = (Raise (ValueError "GEMINI_API_KEY environment variable not set"), empty_world).
Proof.
  apply (generate_embedding_missing_key ∅ (dumps_of "body") (loads_of "" VNone)
           provider_down "hello world" "RETRIEVAL_DOCUMENT" empty_world).
  left. reflexivity.
Defined.

(** C8: for every input path that names no file, [embed_file] raises
    [FileNotFoundError] and leaves the world as it was: [generate_embedding]
    has not run, no request has been sent, nothing has been printed or
    written. *)
Theorem embed_file_missing_input (environ : gmap string string)
    (json_dumps : option nat -> value -> string)
    (json_loads : string -> option value) (provider : request -> reply)
    (path_str : string -> string)
    (input_path output_path task_type : string) (w : world) :
  files w !! input_path = None ->
  embed_file environ json_dumps json_loads provider path_str
    input_path output_path task_type w
  = (Raise (FileNotFoundError ("Input file not found: " +:+ input_path)), w).
Proof.
  intros Habsent. unfold embed_file, mbind, io_bind, exists_.
  rewrite Habsent. rewrite bool_decide_eq_false_2; [done|].
  by intros [? ?].
Qed.

Lemma embed_file_missing_input_witness :
  embed_file {[ "GEMINI_API_KEY" := "secret" ]} (dumps_of "body")
    (loads_of "" VNone) provider_down (fun p => p) "in.txt" "out.json"
    "RETRIEVAL_DOCUMENT" empty_world
  = (Raise (FileNotFoundError "Input file not found: in.txt"), empty_world).
Proof.
  apply (embed_file_missing_input {[ "GEMINI_API_KEY" := "secret" ]}
           (dumps_of "body") (loads_of "" VNone) provider_down (fun p => p)
           "in.txt" "out.json" "RETRIEVAL_DOCUMENT" empty_world).
  reflexivity.
Defined.

(** The pipeline runs.  The input file holds [hello world], the provider
    answers with [0.1, 0.2, 0.3] under [embedding.values]: [embed_file]
    sends one request, writes the record and prints three lines, and
    [load_embedding] reads the vector and the metadata back. *)
Example embed_file_scenario :
  let environ : gmap string string := {[ "GEMINI_API_KEY" := "secret" ]} in
  let values := vector [ldexp 3602879701896397 (-55);
                        ldexp 3602879701896397 (-54);
                        ldexp 5404319552844595 (-54)] in
  let metadata : gmap string value :=
    {[ "source_file" := VStr "in.txt";
       "text_length" := VInt 11;
       "text_preview" := VStr "hello world" ]} in
  let documents : gmap string value :=
    {[ "reply" := VDict {[ "embedding" := VDict {[ "values" := values ]} ]};
       "record" := VDict (output_data environ values 3 (Some metadata)) ]} in
  let json_loads := fun text => documents !! text in
  let w := {| files := {[ "in.txt" := "hello world" ]};
              requests := []; stderr := [] |} in
  let run := embed_file environ (dumps_of "record") json_loads
               (fun _ => Response "reply") (fun p => p)
               "in.txt" "out.json" "RETRIEVAL_DOCUMENT" w in
  fst run = Ok tt
  /\ length (requests (snd run)) = 1
  /\ stderr (snd run) = ["Generating embedding for in.txt...";
                          "Saved embedding to out.json";
                          "Embedding dimension: 3"]
  /\ load_embedding json_loads "out.json" (snd run)
     = (Ok (values, VDict metadata), snd run).
Proof. vm_compute. done. Qed.

(** * Properties of the similarity on Python floats *)

Section Binary64_properties.
Implicit Types (a b : list float) (x y : float).



Lemma cosine_similarity_mismatch a b :
  length a ≠ length b ->
  cosine_similarity a b = Raise (ValueError "Embeddings must have same dimension").
Proof.
  intros Hlen. unfold cosine_similarity.
  by apply Nat.eqb_neq in Hlen as ->.
Qed.

Lemma cosine_similarity_same_length a b :
  length a = length b ->
  cosine_similarity a b =
    if num_eq_zero (magnitude a) || num_eq_zero (magnitude b) then Ok num_zero
    else truediv (sum (map (fun '(x, y) => num_mul x y) (zip a b)))
                 (num_mul (magnitude a) (magnitude b)).
Proof.
  intros Hlen. unfold cosine_similarity.
  by apply Nat.eqb_eq in Hlen as ->.
Qed.

Lemma truediv_not_ValueError x y msg : truediv x y ≠ Raise (ValueError msg).
Proof. unfold truediv. by destruct (num_eq_zero y). Qed.

(** A vector of zeros, of either sign, has a computed norm of [+0.0]. *)
Lemma sum_squares_zeros a :
  all_zero a = true -> sum (map (fun x => num_mul x x) a) = S754_zero false.
Proof.
  unfold sum. induction a as [|[s| | |] a IH]; simpl; try done.
  by destruct s.
Qed.

Lemma magnitude_zeros a : all_zero a = true -> num_eq_zero (magnitude a) = true.
Proof. intros Hz. unfold magnitude. by rewrite sum_squares_zeros. Qed.
End Binary64_properties.

(** The model runs: a 3-4-5 triangle, orthogonal vectors, opposite
    vectors (one rounding away from -1), no entries at all. *)
Example magnitude_3_4 : magnitude [of_Z 3; of_Z 4] = of_Z 5.
Proof. reflexivity. Qed.

Example cosine_similarity_parallel :
  cosine_similarity [of_Z 3; of_Z 4] [of_Z 3; of_Z 4] = Ok (of_Z 1).
Proof. reflexivity. Qed.

Example cosine_similarity_orthogonal :
  cosine_similarity [of_Z 1; of_Z 0] [of_Z 0; of_Z 1] = Ok (S754_zero false).
Proof. reflexivity. Qed.

Example cosine_similarity_opposite :
  cosine_similarity [of_Z 1; of_Z 2] [of_Z (-1); of_Z (-2)]
  = Ok (ldexp (- (2 ^ 53 - 2)) (-53)).
Proof. reflexivity. Qed.

Example cosine_similarity_empty : cosine_similarity (T:=float) [] [] = Ok (S754_zero false).
Proof. reflexivity. Qed.


(** C3: [cosine_similarity] raises the dimension-mismatch [ValueError]
    exactly when the two vectors differ in length. *)
Theorem cosine_similarity_mismatch_iff (a b : list float) :
  cosine_similarity a b = Raise (ValueError "Embeddings must have same dimension")
  <-> length a ≠ length b.
Proof.
  split; [|apply cosine_similarity_mismatch].
  intros Hraise Hlen. rewrite cosine_similarity_same_length in Hraise by done.
  destruct (_ || _); [done|]. by apply truediv_not_ValueError in Hraise.
Qed.

(** C4: for vectors of equal length, when one of them is all zeros, or the
    norm the code computes for one of them is zero, [cosine_similarity]
    returns [0.0] and raises nothing. *)
Theorem cosine_similarity_zero_norm (a b : list float) :
  length a = length b ->
  all_zero a = true \/ all_zero b = true
  \/ num_eq_zero (magnitude a) = true \/ num_eq_zero (magnitude b) = true ->
  cosine_similarity a b = Ok (S754_zero false).
Proof.
  intros Hlen Hzero. rewrite cosine_similarity_same_length by done.
  assert (num_eq_zero (magnitude a) = true \/ num_eq_zero (magnitude b) = true)
    as [-> | ->].
  { destruct Hzero as [Hz | [Hz | [Hz | Hz]]]; auto using magnitude_zeros. }
  - done.
  - by rewrite orb_true_r.
Qed.

Lemma cosine_similarity_zero_norm_witness :
  cosine_similarity [S754_zero false; S754_zero true] [of_Z 1; of_Z 2]
  = Ok (S754_zero false).
Proof.
  apply (cosine_similarity_zero_norm [S754_zero false; S754_zero true]
           [of_Z 1; of_Z 2]).
  - reflexivity.
  - left. reflexivity.
Defined.

(** C5: the code leaves the interval from -1 to 1 that the claim and the
    docstring of the function promise: the similarity of
    [[1.0, 1.0, 1.0]] with itself is [1.0000000000000002], the double
    after [1.0].  The sum of squares is [3.0], its root
    [1.7320508075688772], the product of the two norms
    [2.9999999999999996]. *)
Lemma cosine_similarity_above_one :
  forallb (valid_binary prec emax) ones = true
  /\ length ones = length ones
  /\ magnitude ones = ldexp 7800463371553962 (-52)
  /\ cosine_similarity ones ones = Ok (ldexp 4503599627370497 (-52))
  /\ SFltb (of_Z 1) (ldexp 4503599627370497 (-52)) = true.
Proof. vm_compute. done. Qed.

(** C6: the code does not return 1.0 for every vector with a norm that is
    not zero: the squares of [2.0 ** 600] overflow, the computed norm is
    [inf], not zero, and the similarity of the vector with itself is
    [nan]; the squares of [2.0 ** -600] underflow to zero and the
    similarity of that vector with itself is [0.0]. *)
Lemma self_similarity_out_of_range :
  let big := [ldexp 1 600] in
  let small := [ldexp 1 (-600)] in
  forallb (valid_binary prec emax) (big ++ small) = true
  /\ magnitude big = S754_infinity false
  /\ num_eq_zero (magnitude big) = false
  /\ cosine_similarity big big = Ok S754_nan
  /\ all_zero small = false
  /\ cosine_similarity small small = Ok (S754_zero false).
Proof. vm_compute. done. Qed.

(** * Further properties of the embedding client *)

Section Client_properties.
Variable environ : gmap string string.
Variable json_dumps : option nat -> value -> string.
Variable json_loads : string -> option value.
Variable provider : request -> reply.

(** With a key, [generate_embedding] is one request and a reading of the
    reply. *)
Lemma generate_embedding_run (key text task_type : string) (w : world) :
  environ !! "GEMINI_API_KEY" = Some key -> key ≠ "" ->
  generate_embedding environ json_dumps json_loads provider text task_type w
  = (outcome json_loads
       (provider (embed_request environ json_dumps key text task_type)),
     sent (embed_request environ json_dumps key text task_type) w).
Proof.
  intros Hkey Hne. unfold generate_embedding, GEMINI_API_KEY. rewrite Hkey.
  destruct key as [|c key]; [done|].
  unfold mbind, io_bind, urlopen, embed_request, sent, outcome. simpl.
  destruct (provider _) as [body|code error_text|reason]; try reflexivity.
  unfold reraise, raise. destruct (json_loads body) as [data|]; [|reflexivity].
  by destruct (embedding_values data).
Qed.

Lemma generate_embedding_no_key (text task_type : string) (w : world) :
  environ !! "GEMINI_API_KEY" = None \/ environ !! "GEMINI_API_KEY" = Some "" ->
  generate_embedding environ json_dumps json_loads provider text task_type w
  = (Raise (ValueError "GEMINI_API_KEY environment variable not set"), w).
Proof.
  intros Hkey. unfold generate_embedding, GEMINI_API_KEY.
  by destruct Hkey as [-> | ->].
Qed.

(** The key is missing, or it is there and not empty. *)
Lemma key_cases :
  (environ !! "GEMINI_API_KEY" = None \/ environ !! "GEMINI_API_KEY" = Some "")
  \/ exists key, environ !! "GEMINI_API_KEY" = Some key /\ key ≠ "".
Proof.
  destruct (environ !! "GEMINI_API_KEY") as [[|c key]|]; eauto.
Qed.

(** [data['embedding']['values']] is reached only through two dicts. *)
Lemma embedding_values_Ok (data values : value) :
  embedding_values data = Ok values <->
  exists d e : gmap string value,
    data = VDict d /\ d !! "embedding" = Some (VDict e) /\ e !! "values" = Some values.
Proof.
  split.
  - unfold embedding_values. intros Hv.
    destruct data as [| | | | s|l|d]; simpl in Hv; try done.
    + by destruct (String.index _ _ _).
    + by destruct (existsb _ _).
    + case_bool_decide as Hin; [|done].
      destruct Hin as [emb Hemb]. rewrite Hemb in Hv.
      destruct emb as [| | | | s|l|e]; simpl in Hv; try done.
      * by destruct (String.index _ _ _).
      * by destruct (existsb _ _).
      * case_bool_decide as Hin; [|done].
        destruct Hin as [v He]. rewrite He in Hv.
        exists d, e. by simplify_eq.
  - intros (d & e & -> & Hemb & He). unfold embedding_values. simpl.
    rewrite Hemb. rewrite bool_decide_eq_true_2 by eauto. simpl.
    rewrite He. by rewrite bool_decide_eq_true_2 by eauto.
Qed.

Lemma wrap_GenerateFailed (e : exn) : exists c, wrap e = GenerateFailed c.
Proof. destruct e; simpl; eauto. Qed.

Lemma outcome_Ok (r : reply) (values : value) :
  outcome json_loads r = Ok values <->
  exists body data, r = Response body /\ json_loads body = Some data
                    /\ embedding_values data = Ok values.
Proof.
  split.
  - destruct r as [body|code error_text|reason]; simpl; try done.
    destruct (json_loads body) as [data|] eqn:Hdata; [|done].
    destruct (embedding_values data) eqn:Hv; [|done].
    intros [= ->]. eauto.
  - intros (body & data & -> & Hdata & Hv). simpl. by rewrite Hdata, Hv.
Qed.

Lemma outcome_Raise (r : reply) (e : exn) :
  outcome json_loads r = Raise e ->
  (exists code error_text, r = HTTPError code error_text /\ e = ApiError code error_text)
  \/ ((forall code error_text, r ≠ HTTPError code error_text)
      /\ exists c, e = GenerateFailed c).
Proof.
  destruct r as [body|code error_text|reason]; simpl.
  - intros He. right. split; [done|].
    destruct (json_loads body) as [data|]; [|simplify_eq; eauto].
    destruct (embedding_values data) as [|e']; [done|].
    destruct (wrap_GenerateFailed e') as [c Hc]. exists c. congruence.
  - intros [= <-]. left. eauto.
  - intros [= <-]. right. split; [done|]. eauto.
Qed.
End Client_properties.

(** X1: with a non-empty key, [generate_embedding] sends exactly one
    request, whatever the provider answers: a POST of the JSON body to the
    model's [embedContent] URL with the key in the query, with the JSON
    content type.  Files and [sys.stderr] are untouched. *)
Theorem generate_embedding_one_request (environ : gmap string string)
    (json_dumps : option nat -> value -> string)
    (json_loads : string -> option value) (provider : request -> reply)
    (key text task_type : string) (w : world) :
  environ !! "GEMINI_API_KEY" = Some key -> key ≠ "" ->
  snd (generate_embedding environ json_dumps json_loads provider text task_type w)
  = {| files := files w;
       requests := requests w ++
         [ {| url := "https://generativelanguage.googleapis.com/v1beta/"
                     +:+ EMBEDDING_MODEL environ +:+ ":embedContent?key=" +:+ key;
              data := json_dumps None
                (VDict {[ "model" := VStr (EMBEDDING_MODEL environ);
                          "content" := VDict {[ "parts" :=
                                         VList [VDict {[ "text" := VStr text ]}] ]};
                          "taskType" := VStr task_type ]});
              headers := [("Content-Type", "application/json")];
              method := "POST" |} ];
       stderr := stderr w |}.
Proof.
  intros Hkey Hne.
  by rewrite (generate_embedding_run _ _ _ _ _ _ _ _ Hkey Hne).
Qed.

Lemma generate_embedding_one_request_witness :
  length (requests (snd (generate_embedding {[ "GEMINI_API_KEY" := "secret" ]}
            (dumps_of "body") (loads_of "" VNone) provider_down
            "hello world" "RETRIEVAL_DOCUMENT" empty_world))) = 1.
Proof.
  rewrite (generate_embedding_one_request {[ "GEMINI_API_KEY" := "secret" ]}
             (dumps_of "body") (loads_of "" VNone) provider_down
             "secret" "hello world" "RETRIEVAL_DOCUMENT" empty_world);
    [reflexivity | reflexivity | discriminate].
Defined.

(** X2: [generate_embedding] returns a value exactly when the key is set
    and not empty, the provider answers the request with a success whose
    body is a JSON object, with an object under [embedding] and the value
    under [values] there; that value is returned as it is. *)
Theorem generate_embedding_success_iff (environ : gmap string string)
    (json_dumps : option nat -> value -> string)
    (json_loads : string -> option value) (provider : request -> reply)
    (text task_type : string) (w : world) (values : value) :
  fst (generate_embedding environ json_dumps json_loads provider text task_type w)
  = Ok values
  <->
  exists (key body : string) (d e : gmap string value),
    environ !! "GEMINI_API_KEY" = Some key /\ key ≠ ""
    /\ provider (embed_request environ json_dumps key text task_type) = Response body
    /\ json_loads body = Some (VDict d)
    /\ d !! "embedding" = Some (VDict e)
    /\ e !! "values" = Some values.
Proof.
  split.
  - destruct (key_cases environ) as [Hno | (key & Hkey & Hne)].
    { by rewrite generate_embedding_no_key. }
    rewrite (generate_embedding_run _ _ _ _ _ _ _ _ Hkey Hne). simpl.
    intros (body & data & Hr & Hdata & Hv)%outcome_Ok.
    apply embedding_values_Ok in Hv as (d & e & -> & Hemb & He).
    by exists key, body, d, e.
  - intros (key & body & d & e & Hkey & Hne & Hr & Hdata & Hemb & He).
    rewrite (generate_embedding_run _ _ _ _ _ _ _ _ Hkey Hne). simpl.
    apply outcome_Ok. exists body, (VDict d). split_and!; [done..|].
    apply embedding_values_Ok. by exists d, e.
Qed.

(** X3: [generate_embedding] raises the provider error carrying a status
    code and a body exactly when the key is set and not empty and the
    provider answers the request with that HTTP error; the generic
    [except] clause never produces it and never hides it. *)
Theorem generate_embedding_http_error_iff (environ : gmap string string)
    (json_dumps : option nat -> value -> string)
    (json_loads : string -> option value) (provider : request -> reply)
    (text task_type : string) (w : world) (code : Z) (error_text : string) :
  fst (generate_embedding environ json_dumps json_loads provider text task_type w)
  = Raise (ApiError code error_text)
  <->
  exists key : string,
    environ !! "GEMINI_API_KEY" = Some key /\ key ≠ ""
    /\ provider (embed_request environ json_dumps key text task_type)
       = HTTPError code error_text.
Proof.
  split.
  - destruct (key_cases environ) as [Hno | (key & Hkey & Hne)].
    { by rewrite generate_embedding_no_key. }
    rewrite (generate_embedding_run _ _ _ _ _ _ _ _ Hkey Hne). simpl.
    intros [(c & t & Hr & [= -> ->]) | [_ [c [=]]]]%outcome_Raise.
    by exists key.
  - intros (key & Hkey & Hne & Hr).
    rewrite (generate_embedding_run _ _ _ _ _ _ _ _ Hkey Hne). simpl.
    by rewrite Hr.
Qed.

(** X5: a success whose JSON object has no [embedding] key, or has an
    object without a [values] key under it, makes [generate_embedding]
    raise the wrapped unexpected-format failure, carrying the parsed
    body. *)
Theorem generate_embedding_unexpected_format (environ : gmap string string)
    (json_dumps : option nat -> value -> string)
    (json_loads : string -> option value) (provider : request -> reply)
    (key text task_type body : string) (d : gmap string value) (w : world) :
  environ !! "GEMINI_API_KEY" = Some key -> key ≠ "" ->
  provider (embed_request environ json_dumps key text task_type) = Response body ->
  json_loads body = Some (VDict d) ->
  d !! "embedding" = None
  \/ (exists e : gmap string value,
        d !! "embedding" = Some (VDict e) /\ e !! "values" = None) ->
  fst (generate_embedding environ json_dumps json_loads provider text task_type w)
  = Raise (GenerateFailed (UnexpectedFormat (VDict d))).
Proof.
  intros Hkey Hne Hr Hdata Hshape.
  rewrite (generate_embedding_run _ _ _ _ _ _ _ _ Hkey Hne). simpl.
  rewrite Hr. simpl. rewrite Hdata. unfold embedding_values. simpl.
  destruct Hshape as [Hemb | (e & Hemb & He)]; rewrite Hemb.
  - by rewrite bool_decide_eq_false_2 by (by intros [? ?]).
  - rewrite bool_decide_eq_true_2 by eauto. simpl. rewrite He.
    by rewrite bool_decide_eq_false_2 by (by intros [? ?]).
Qed.

Lemma generate_embedding_unexpected_format_witness :
  fst (generate_embedding {[ "GEMINI_API_KEY" := "secret" ]} (dumps_of "body")
         (loads_of "reply" (VDict {[ "error" := VStr "no model" ]}))
         (fun _ => Response "reply") "hello world" "RETRIEVAL_DOCUMENT" empty_world)
  = Raise (GenerateFailed (UnexpectedFormat (VDict {[ "error" := VStr "no model" ]}))).
Proof.
  apply (generate_embedding_unexpected_format {[ "GEMINI_API_KEY" := "secret" ]}
           (dumps_of "body")
           (loads_of "reply" (VDict {[ "error" := VStr "no model" ]}))
           (fun _ => Response "reply") "secret" "hello world"
           "RETRIEVAL_DOCUMENT" "reply" {[ "error" := VStr "no model" ]} empty_world).
  - reflexivity.
  - discriminate.
  - reflexivity.
  - reflexivity.
  - left. reflexivity.
Defined.

(** * Further properties of the embedding store *)

Section Store_more.
Variable environ : gmap string string.
Variable json_dumps : option nat -> value -> string.
Variable json_loads : string -> option value.

(** [save_embedding] either raises before the file is opened or writes one
    file. *)
Lemma save_embedding_run (embedding : value) (output_path : string)
    (metadata : option (gmap string value)) (w : world) :
  save_embedding environ json_dumps embedding output_path metadata w =
  match len embedding with
  | None => (Raise TypeError, w)
  | Some n =>
      (Ok tt, written output_path
                (json_dumps (Some 2)
                   (VDict (output_data environ embedding n metadata))) w)
  end.
Proof. unfold save_embedding. by destruct (len embedding). Qed.

(** What [load_embedding] returns is decided by the file at the path. *)
Lemma load_embedding_run (input_path : string) (w : world) :
  load_embedding json_loads input_path w =
  (match files w !! input_path with
   | None =>
       Raise (FileNotFoundError
                ("[Errno 2] No such file or directory: '" +:+ input_path +:+ "'"))
   | Some text =>
       match json_loads text with
       | None => Raise JSONDecodeError
       | Some (VDict d) =>
           Ok (default (VList []) (d !! "embedding"),
               default (VDict ∅) (d !! "metadata"))
       | Some _ => Raise AttributeError
       end
   end, w).
Proof.
  unfold load_embedding, mbind, io_bind, read_text.
  destruct (files w !! input_path) as [text|]; [|done].
  destruct (json_loads text) as [[| | | | | |d]|]; done.
Qed.
End Store_more.

(** X6: [save_embedding] touches nothing but the file at its path: every
    other file is as before, no request is sent and nothing is printed. *)
Theorem save_embedding_frame (environ : gmap string string)
    (json_dumps : option nat -> value -> string) (embedding : value)
    (output_path : string) (metadata : option (gmap string value)) (w : world) :
  let w' := snd (save_embedding environ json_dumps embedding output_path metadata w) in
  requests w' = requests w
  /\ stderr w' = stderr w
  /\ forall path : string, path ≠ output_path -> files w' !! path = files w !! path.
Proof.
  rewrite save_embedding_run. destruct (len embedding); simpl; [|done].
  split_and!; [done..|]. intros path Hne. by rewrite lookup_insert_ne.
Qed.

(** X7: a repeated save to the same path overwrites: after two saves the
    world is the one the second save alone would leave. *)
Theorem save_embedding_overwrites (environ : gmap string string)
    (json_dumps : option nat -> value -> string) (embedding1 embedding2 : value)
    (output_path : string) (metadata1 metadata2 : option (gmap string value))
    (w : world) :
  is_Some (len embedding2) ->
  snd (save_embedding environ json_dumps embedding2 output_path metadata2
         (snd (save_embedding environ json_dumps embedding1 output_path metadata1 w)))
  = snd (save_embedding environ json_dumps embedding2 output_path metadata2 w).
Proof.
  intros [n2 Hn2]. rewrite !save_embedding_run, Hn2.
  destruct (len embedding1); simpl; [|done].
  unfold written. simpl. by rewrite insert_insert_eq.
Qed.

Lemma save_embedding_overwrites_witness :
  let json_dumps : option nat -> value -> string := fun _ v =>
    match v with
    | VDict d => match d !! "dimension" with
                 | Some (VInt 1) => "second"
                 | _ => "first"
                 end
    | _ => "other"
    end in
  snd (save_embedding ∅ json_dumps (vector [of_Z 7]) "out.json" None
         (snd (save_embedding ∅ json_dumps (vector [of_Z 1; of_Z 2]) "out.json"
                 None empty_world)))
  = written "out.json" "second" empty_world.
Proof.
  intros json_dumps.
  rewrite (save_embedding_overwrites ∅ json_dumps (vector [of_Z 1; of_Z 2])
             (vector [of_Z 7]) "out.json" None None empty_world); [|by eexists].
  reflexivity.
Defined.

(** X8: a record saved without metadata, or with an empty mapping, is read
    back with the empty mapping: when [json.load] reads the text
    [json.dump] wrote for the record back as that record, [load_embedding]
    after such a save returns the vector and [{}]. *)
Theorem save_load_default_metadata (environ : gmap string string)
    (json_dumps : option nat -> value -> string)
    (json_loads : string -> option value)
    (v : list float) (metadata : option (gmap string value))
    (path : string) (w : world) :
  metadata = None \/ metadata = Some ∅ ->
  json_loads (json_dumps (Some 2)
                (VDict (output_data environ (vector v) (length v) metadata)))
  = Some (VDict (output_data environ (vector v) (length v) metadata)) ->
  exists w' : world,
    save_embedding environ json_dumps (vector v) path metadata w = (Ok tt, w')
    /\ load_embedding json_loads path w' = (Ok (vector v, VDict ∅), w').
Proof.
  intros Hmeta Hcodec. eexists. rewrite save_embedding_vector.
  split; [reflexivity|].
  rewrite load_embedding_run. unfold write_text. simpl.
  rewrite lookup_insert_eq, Hcodec. unfold output_data. simplify_map_eq.
  by destruct Hmeta as [-> | ->].
Qed.

Lemma save_load_default_metadata_witness :
  let v := [of_Z 1; of_Z 2] in
  let doc := VDict (output_data ∅ (vector v) (length v) None) in
  exists w' : world,
    save_embedding ∅ (dumps_of "record") (vector v) "out.json" None empty_world
      = (Ok tt, w')
    /\ load_embedding (loads_of "record" doc) "out.json" w'
      = (Ok (vector v, VDict ∅), w').
Proof.
  intros v doc.
  apply (save_load_default_metadata ∅ (dumps_of "record") (loads_of "record" doc)
           v None "out.json" empty_world).
  - left. reflexivity.
  - reflexivity.
Defined.

(** X9: [load_embedding] returns only for an object: it returns a pair
    exactly when a file is at the path, its text is valid JSON and the
    document is an object; the pair is then the value under [embedding],
    or the empty list, and the value under [metadata], or the empty
    mapping. *)
Theorem load_embedding_success_iff (json_loads : string -> option value)
    (input_path : string) (w : world) (embedding metadata : value) :
  fst (load_embedding json_loads input_path w) = Ok (embedding, metadata)
  <->
  exists (text : string) (d : gmap string value),
    files w !! input_path = Some text
    /\ json_loads text = Some (VDict d)
    /\ embedding = default (VList []) (d !! "embedding")
    /\ metadata = default (VDict ∅) (d !! "metadata").
Proof.
  rewrite load_embedding_run. simpl. split.
  - destruct (files w !! input_path) as [text|]; [|done].
    destruct (json_loads text) as [data|] eqn:Hdata; [|done].
    destruct data as [| | | | | |d]; try done.
    intros [= <- <-]. by exists text, d.
  - intros (text & d & -> & -> & -> & ->). done.
Qed.

(** X10: [load_embedding] only reads: whatever it returns or raises, the
    files, the requests sent and [sys.stderr] are as before. *)
Theorem load_embedding_reads_only (json_loads : string -> option value)
    (input_path : string) (w : world) :
  snd (load_embedding json_loads input_path w) = w.
Proof. by rewrite load_embedding_run. Qed.

(** * Further properties of the pipeline *)

Section String_facts.
Implicit Types (s t : string) (n m : nat).

Lemma append_cons c s t : String c s +:+ t = String c (s +:+ t).
Proof. reflexivity. Qed.

Lemma length_append s t : String.length (s +:+ t) = String.length s + String.length t.
Proof.
  induction s as [|c s IH]; [done|].
  rewrite append_cons. simpl String.length. by rewrite IH.
Qed.

Lemma append_empty_r s : s +:+ "" = s.
Proof. induction s as [|c s IH]; [done|]. by rewrite append_cons, IH. Qed.

Lemma length_substring_0 n s :
  String.length (String.substring 0 n s) = n `min` String.length s.
Proof.
  revert s. induction n as [|n IH]; intros [|c s]; simpl; try done.
  by rewrite IH.
Qed.

Lemma substring_0_short n s : String.length s <= n -> String.substring 0 n s = s.
Proof.
  revert s. induction n as [|n IH]; intros [|c s]; simpl; try done; [lia|].
  intros Hlen. rewrite IH; [done|lia].
Qed.

Lemma substring_0_append n s t :
  n <= String.length s -> String.substring 0 n (s +:+ t) = String.substring 0 n s.
Proof.
  revert s. induction n as [|n IH]; intros [|c s] Hlen.
  - by destruct t.
  - done.
  - simpl in Hlen. lia.
  - rewrite append_cons. simpl in *. rewrite IH; [done|lia].
Qed.

Lemma substring_skip_append m s t :
  String.substring (String.length s) m (s +:+ t) = String.substring 0 m t.
Proof.
  induction s as [|c s IH]; [done|].
  rewrite append_cons. exact IH.
Qed.

Lemma substring_0_idem n s :
  String.substring 0 n (String.substring 0 n s) = String.substring 0 n s.
Proof.
  apply substring_0_short. rewrite length_substring_0. lia.
Qed.
End String_facts.

(** X12: a text of at most 200 characters is its own preview: nothing is
    cut and no marker is added. *)
Theorem text_preview_short (text : string) :
  String.length text <= 200 -> text_preview text = text.
Proof.
  intros Hlen. unfold text_preview.
  apply Nat.ltb_ge in Hlen as Hlt. rewrite Hlt.
  by rewrite append_empty_r, substring_0_short.
Qed.

Lemma text_preview_short_witness : text_preview "hello world" = "hello world".
Proof.
  apply (text_preview_short "hello world"). simpl. lia.
Defined.

(** X13: the preview of a longer text has exactly 203 characters: the
    first 200 characters of the text, then the marker [...]. *)
Theorem text_preview_long (text : string) :
  200 < String.length text ->
  String.length (text_preview text) = 203
  /\ String.substring 0 200 (text_preview text) = String.substring 0 200 text
  /\ String.substring 200 3 (text_preview text) = "...".
Proof.
  intros Hlen. unfold text_preview.
  apply Nat.ltb_lt in Hlen as Hlt. rewrite Hlt.
  assert (String.length (String.substring 0 200 text) = 200) as Hcut.
  { rewrite length_substring_0. lia. }
  split_and!.
  - rewrite length_append, Hcut. reflexivity.
  - rewrite substring_0_append by lia. apply substring_0_idem.
  - rewrite <- Hcut at 1. by rewrite substring_skip_append.
Qed.

Lemma text_preview_long_witness :
  let text := Nat.iter 25 (fun s => "0123456789" +:+ s) "" in
  String.length (text_preview text) = 203
  /\ String.substring 0 200 (text_preview text) = String.substring 0 200 text
  /\ String.substring 200 3 (text_preview text) = "...".
Proof.
  intros text. apply (text_preview_long text).
  apply Nat.ltb_lt. vm_compute. reflexivity.
Defined.

(** X14: a preview never has more than 203 characters, and never more than
    three characters more than the text. *)
Theorem text_preview_length (text : string) :
  String.length (text_preview text) <= 203
  /\ String.length (text_preview text) <= String.length text + 3.
Proof.
  unfold text_preview. rewrite length_append, length_substring_0.
  destruct (200 <? String.length text)%nat; simpl String.length; lia.
Qed.

Section Pipeline_properties.
Variable environ : gmap string string.
Variable json_dumps : option nat -> value -> string.
Variable json_loads : string -> option value.
Variable provider : request -> reply.
Variable path_str : string -> string.

(** What [generate_embedding] returns does not depend on the world. *)
Lemma generate_embedding_fst (text task_type : string) (w1 w2 : world) :
  fst (generate_embedding environ json_dumps json_loads provider text task_type w1)
  = fst (generate_embedding environ json_dumps json_loads provider text task_type w2).
Proof.
  destruct (key_cases environ) as [Hno | (key & Hkey & Hne)].
  - by rewrite !generate_embedding_no_key.
  - by rewrite !(generate_embedding_run _ _ _ _ _ _ _ _ Hkey Hne).
Qed.

(** [generate_embedding] leaves the world alone or adds one request. *)
Lemma generate_embedding_snd (text task_type : string) (w : world) :
  let w' := snd (generate_embedding environ json_dumps json_loads provider
                   text task_type w) in
  w' = w \/ exists req, w' = sent req w.
Proof.
  destruct (key_cases environ) as [Hno | (key & Hkey & Hne)].
  - left. by rewrite generate_embedding_no_key.
  - right. rewrite (generate_embedding_run _ _ _ _ _ _ _ _ Hkey Hne). by eexists.
Qed.

(** [embed_file], step by step. *)
Lemma embed_file_run (input_path output_path task_type : string) (w : world) :
  embed_file environ json_dumps json_loads provider path_str
    input_path output_path task_type w =
  match files w !! input_path with
  | None => (Raise (FileNotFoundError ("Input file not found: " +:+ input_path)), w)
  | Some text =>
      match generate_embedding environ json_dumps json_loads provider text task_type
              (printed ["Generating embedding for " +:+ input_path +:+ "..."] w) with
      | (Raise e, w') => (Raise e, w')
      | (Ok embedding, w') =>
          match len embedding with
          | None => (Raise TypeError, w')
          | Some n =>
              (Ok tt,
               printed ["Embedding dimension: " +:+ pretty n]
                 (printed ["Saved embedding to " +:+ output_path]
                    (written output_path
                       (json_dumps (Some 2)
                          (VDict (output_data environ embedding n
                                    (Some (embed_metadata path_str input_path text)))))
                       w')))
          end
      end
  end.
Proof.
  unfold embed_file, mbind, io_bind, exists_, read_text.
  destruct (files w !! input_path) as [text|] eqn:Hfile.
  - rewrite bool_decide_eq_true_2 by eauto. simpl. rewrite Hfile.
    fold (printed ["Generating embedding for " +:+ input_path +:+ "..."] w).
    destruct (generate_embedding _ _ _ _ _ _ _) as [[embedding|e] w']; [|done].
    unfold save_embedding. destruct (len embedding) as [n|]; [|done].
    reflexivity.
  - rewrite bool_decide_eq_false_2 by (by intros [? ?]). done.
Qed.

(** A call of [embed_file] that raises has written no file. *)
Lemma embed_file_raise_files (input_path output_path task_type : string)
    (w : world) (e : exn) :
  fst (embed_file environ json_dumps json_loads provider path_str
         input_path output_path task_type w) = Raise e ->
  files (snd (embed_file environ json_dumps json_loads provider path_str
                input_path output_path task_type w)) = files w.
Proof.
  rewrite embed_file_run.
  destruct (files w !! input_path) as [text|]; [|done].
  pose proof (generate_embedding_snd text task_type
                (printed ["Generating embedding for " +:+ input_path +:+ "..."] w))
    as Hworld.
  destruct (generate_embedding _ _ _ _ _ _ _) as [[embedding|e'] w'];
    simpl in Hworld.
  - destruct (len embedding); [done|]. intros _. simpl.
    by destruct Hworld as [-> | [req ->]].
  - intros _. simpl. by destruct Hworld as [-> | [req ->]].
Qed.
End Pipeline_properties.

(** X15: the whole pipeline on its success path.  When the input file
    holds [text], the key is set and [generate_embedding] returns an
    embedding that has a length, [embed_file] succeeds and leaves exactly
    this world: the record with the source path, the length of the text and
    its preview as metadata is written at [output_path], one request has
    been sent, and three lines have been printed. *)
Theorem embed_file_success (environ : gmap string string)
    (json_dumps : option nat -> value -> string)
    (json_loads : string -> option value) (provider : request -> reply)
    (path_str : string -> string)
    (input_path output_path task_type text key : string)
    (embedding : value) (n : nat) (w : world) :
  files w !! input_path = Some text ->
  environ !! "GEMINI_API_KEY" = Some key -> key ≠ "" ->
  fst (generate_embedding environ json_dumps json_loads provider text task_type w)
  = Ok embedding ->
  len embedding = Some n ->
  embed_file environ json_dumps json_loads provider path_str
    input_path output_path task_type w
  = (Ok tt,
     {| files :=
          <[output_path :=
              json_dumps (Some 2)
                (VDict (output_data environ embedding n
                          (Some {[ "source_file" := VStr (path_str input_path);
                                   "text_length" := VInt (Z.of_nat (String.length text));
                                   "text_preview" := VStr (text_preview text) ]})))]>
            (files w);
        requests := requests w ++ [embed_request environ json_dumps key text task_type];
        stderr := stderr w ++ ["Generating embedding for " +:+ input_path +:+ "...";
                               "Saved embedding to " +:+ output_path;
                               "Embedding dimension: " +:+ pretty n] |}).
Proof.
  intros Hfile Hkey Hne Hgen Hlen.
  rewrite embed_file_run, Hfile.
  rewrite (generate_embedding_run _ _ _ _ _ _ _ _ Hkey Hne) in Hgen.
  rewrite (generate_embedding_run _ _ _ _ _ _ _ _ Hkey Hne).
  simpl in Hgen. rewrite Hgen, Hlen.
  unfold printed, written, sent. simpl. by rewrite <- !app_assoc.
Qed.

Lemma embed_file_success_witness :
  let environ : gmap string string := {[ "GEMINI_API_KEY" := "secret" ]} in
  let values := vector [of_Z 1; of_Z 2] in
  let json_loads :=
    loads_of "reply" (VDict {[ "embedding" := VDict {[ "values" := values ]} ]}) in
  let w := written "in.txt" "hello world" empty_world in
  fst (embed_file environ (dumps_of "record") json_loads
         (fun _ => Response "reply") (fun p => p)
         "in.txt" "out.json" "CLUSTERING" w)
  = Ok tt.
Proof.
  intros environ values json_loads w.
  rewrite (embed_file_success environ (dumps_of "record") json_loads
             (fun _ => Response "reply") (fun p => p)
             "in.txt" "out.json" "CLUSTERING" "hello world" "secret" values 2 w);
    [reflexivity | reflexivity | reflexivity | discriminate
     | reflexivity | reflexivity].
Defined.

(** X16: a failed [embed_file] writes nothing: whatever it raises, every
    file, the output file included, is as it was before the call. *)
Theorem embed_file_failure_writes_nothing (environ : gmap string string)
    (json_dumps : option nat -> value -> string)
    (json_loads : string -> option value) (provider : request -> reply)
    (path_str : string -> string)
    (input_path output_path task_type : string) (w : world) (e : exn) :
  fst (embed_file environ json_dumps json_loads provider path_str
         input_path output_path task_type w) = Raise e ->
  files (snd (embed_file environ json_dumps json_loads provider path_str
                input_path output_path task_type w)) = files w.
Proof. apply embed_file_raise_files. Qed.

Lemma embed_file_failure_writes_nothing_witness :
  let w := written "in.txt" "hello world" empty_world in
  files (snd (embed_file {[ "GEMINI_API_KEY" := "secret" ]} (dumps_of "record")
                (loads_of "" VNone) (fun _ => HTTPError 429 "rate limited")
                (fun p => p) "in.txt" "out.json" "CLUSTERING" w))
  = files w.
Proof.
  intros w.
  apply (embed_file_failure_writes_nothing {[ "GEMINI_API_KEY" := "secret" ]}
           (dumps_of "record") (loads_of "" VNone)
           (fun _ => HTTPError 429 "rate limited") (fun p => p)
           "in.txt" "out.json" "CLUSTERING" w (ApiError 429 "rate limited")).
  reflexivity.
Defined.

(** X17: [embed_file] adds nothing to a failure of [generate_embedding]:
    when the input file exists, whatever [generate_embedding] raises for
    its text is what [embed_file] raises. *)
Theorem embed_file_propagates (environ : gmap string string)
    (json_dumps : option nat -> value -> string)
    (json_loads : string -> option value) (provider : request -> reply)
    (path_str : string -> string)
    (input_path output_path task_type text : string) (w : world) (e : exn) :
  files w !! input_path = Some text ->
  fst (generate_embedding environ json_dumps json_loads provider text task_type w)
  = Raise e ->
  fst (embed_file environ json_dumps json_loads provider path_str
         input_path output_path task_type w) = Raise e.
Proof.
  intros Hfile Hgen. rewrite embed_file_run, Hfile.
  rewrite (generate_embedding_fst _ _ _ _ _ _ _
             (printed ["Generating embedding for " +:+ input_path +:+ "..."] w))
    in Hgen.
  destruct (generate_embedding _ _ _ _ _ _ _) as [[embedding|e'] w']; simpl in *;
    by simplify_eq.
Qed.

Lemma embed_file_propagates_witness :
  fst (embed_file ∅ (dumps_of "record") (loads_of "" VNone) provider_down
         (fun p => p) "in.txt" "out.json" "CLUSTERING"
         (written "in.txt" "hello world" empty_world))
  = Raise (ValueError "GEMINI_API_KEY environment variable not set").
Proof.
  apply (embed_file_propagates ∅ (dumps_of "record") (loads_of "" VNone)
           provider_down (fun p => p) "in.txt" "out.json" "CLUSTERING"
           "hello world" (written "in.txt" "hello world" empty_world));
    reflexivity.
Defined.

(** X18: what [embed_file] wrote is what [load_embedding] reads.  When the
    input file holds [text], [generate_embedding] returns an embedding
    that has a length, and [json.load] reads the text [json.dump] wrote for
    the record back as that record, then [embed_file] succeeds and
    [load_embedding] at the output path returns that embedding with the
    source path, the length of the text and its preview as metadata. *)
Theorem embed_file_then_load (environ : gmap string string)
    (json_dumps : option nat -> value -> string)
    (json_loads : string -> option value) (provider : request -> reply)
    (path_str : string -> string)
    (input_path output_path task_type text : string)
    (embedding : value) (n : nat) (w : world) :
  files w !! input_path = Some text ->
  fst (generate_embedding environ json_dumps json_loads provider text task_type w)
  = Ok embedding ->
  len embedding = Some n ->
  json_loads (json_dumps (Some 2)
                (VDict (output_data environ embedding n
                          (Some (embed_metadata path_str input_path text)))))
  = Some (VDict (output_data environ embedding n
                   (Some (embed_metadata path_str input_path text)))) ->
  exists w' : world,
    embed_file environ json_dumps json_loads provider path_str
      input_path output_path task_type w = (Ok tt, w')
    /\ load_embedding json_loads output_path w'
       = (Ok (embedding,
              VDict {[ "source_file" := VStr (path_str input_path);
                       "text_length" := VInt (Z.of_nat (String.length text));
                       "text_preview" := VStr (text_preview text) ]}), w').
Proof.
  intros Hfile Hgen Hlen Hcodec.
  rewrite embed_file_run, Hfile.
  rewrite (generate_embedding_fst _ _ _ _ _ _ _
             (printed ["Generating embedding for " +:+ input_path +:+ "..."] w))
    in Hgen.
  destruct (generate_embedding _ _ _ _ _ _ _) as [r w0]. simpl in Hgen.
  rewrite Hgen, Hlen. eexists. split; [reflexivity|].
  rewrite load_embedding_run. simpl. rewrite lookup_insert_eq, Hcodec.
  unfold output_data. rewrite (or_empty_Some (embed_metadata path_str input_path text)).
  by simplify_map_eq.
Qed.

Lemma embed_file_then_load_witness :
  let environ : gmap string string := {[ "GEMINI_API_KEY" := "secret" ]} in
  let values := vector [of_Z 1; of_Z 2] in
  let documents : gmap string value :=
    {[ "reply" := VDict {[ "embedding" := VDict {[ "values" := values ]} ]};
       "record" := VDict (output_data environ values 2
                            (Some (embed_metadata (fun p => p) "in.txt" "hello world"))) ]} in
  let json_loads := fun text => documents !! text in
  let w := written "in.txt" "hello world" empty_world in
  exists w' : world,
    embed_file environ (dumps_of "record") json_loads (fun _ => Response "reply")
      (fun p => p) "in.txt" "out.json" "CLUSTERING" w = (Ok tt, w')
    /\ load_embedding json_loads "out.json" w'
       = (Ok (values,
              VDict {[ "source_file" := VStr "in.txt";
                       "text_length" := VInt 11;
                       "text_preview" := VStr "hello world" ]}), w').
Proof.
  intros environ values documents json_loads w.
  apply (embed_file_then_load environ (dumps_of "record") json_loads
           (fun _ => Response "reply") (fun p => p)
           "in.txt" "out.json" "CLUSTERING" "hello world" values 2 w);
    vm_compute; reflexivity.
Defined.

(** X19: one call of [embed_file] sends at most one request, and none
    unless the input file exists and the key is set and not empty. *)
Theorem embed_file_at_most_one_request (environ : gmap string string)
    (json_dumps : option nat -> value -> string)
    (json_loads : string -> option value) (provider : request -> reply)
    (path_str : string -> string)
    (input_path output_path task_type : string) (w : world) :
  let w' := snd (embed_file environ json_dumps json_loads provider path_str
                   input_path output_path task_type w) in
  requests w' = requests w
  \/ exists text key,
       files w !! input_path = Some text
       /\ environ !! "GEMINI_API_KEY" = Some key /\ key ≠ ""
       /\ requests w' = requests w ++ [embed_request environ json_dumps key text task_type].
Proof.
  rewrite embed_file_run.
  destruct (files w !! input_path) as [text|] eqn:Hfile; [|by left].
  destruct (key_cases environ) as [Hno | (key & Hkey & Hne)].
  - left. rewrite generate_embedding_no_key by done. done.
  - right. exists text, key. split_and!; [done..|].
    rewrite (generate_embedding_run _ _ _ _ _ _ _ _ Hkey Hne).
    destruct (outcome _ _) as [embedding|e]; [|done].
    by destruct (len embedding).
Qed.

(** * Properties of the command line *)

Section Cli_properties.
Variable environ : gmap string string.
Variable json_dumps : option nat -> value -> string.
Variable json_loads : string -> option value.
Variable provider : request -> reply.
Variable path_str : string -> string.
Variable py_repr : value -> string.
Variable str_builtin : exn -> string.

Lemma print_lines_run (lines : list string) (w : world) :
  print_lines lines w = (Ok tt, printed lines w).
Proof.
  revert w. induction lines as [|line lines IH]; intros w.
  - unfold printed. simpl. rewrite app_nil_r. by destruct w.
  - simpl. unfold mbind, io_bind, print_stderr at 1. simpl.
    fold (print_lines lines). rewrite IH. unfold printed. simpl.
    by rewrite <- app_assoc.
Qed.

(** [main], case by case. *)
Lemma main_run (argv : list string) (w : world) :
  main environ json_dumps json_loads provider path_str py_repr str_builtin argv w =
  match argv with
  | _ :: input_path :: output_path :: rest =>
      match embed_file environ json_dumps json_loads provider path_str
              input_path output_path
              (match rest with
               | task_type :: _ => task_type
               | [] => "RETRIEVAL_DOCUMENT"
               end) w with
      | (Ok _, w') => (0%Z, w')
      | (Raise e, w') =>
          (1%Z, printed ["Error: " +:+ str_exn py_repr str_builtin e] w')
      end
  | _ => (1%Z, printed usage w)
  end.
Proof.
  unfold main. destruct (length argv <? 3)%nat eqn:Hlt.
  - rewrite print_lines_run. apply Nat.ltb_lt in Hlt.
    destruct argv as [|prog [|input_path [|output_path rest]]]; try done.
    simpl in Hlt. lia.
  - apply Nat.ltb_ge in Hlt.
    destruct argv as [|prog [|input_path [|output_path rest]]];
      simpl in Hlt; try lia.
    by destruct rest.
Qed.
End Cli_properties.

(** X20: with fewer than two positional arguments [main] exits with
    status 1 after printing the usage on [sys.stderr]; it reads and writes
    no file and sends no request. *)
Theorem main_usage (environ : gmap string string)
    (json_dumps : option nat -> value -> string)
    (json_loads : string -> option value) (provider : request -> reply)
    (path_str : string -> string) (py_repr : value -> string)
    (str_builtin : exn -> string) (argv : list string) (w : world) :
  length argv < 3 ->
  main environ json_dumps json_loads provider path_str py_repr str_builtin argv w
  = (1%Z, {| files := files w; requests := requests w;
             stderr := stderr w ++ usage |}).
Proof.
  intros Hlen. rewrite main_run.
  destruct argv as [|prog [|input_path [|output_path rest]]]; try done.
  simpl in Hlen. lia.
Qed.

Lemma main_usage_witness :
  fst (main {[ "GEMINI_API_KEY" := "secret" ]} (dumps_of "record")
         (loads_of "" VNone) provider_down (fun p => p) (fun _ => "data")
         (fun _ => "error") ["generate_embeddings.py"; "in.txt"]
         (written "in.txt" "hello world" empty_world))
  = 1%Z.
Proof.
  rewrite (main_usage {[ "GEMINI_API_KEY" := "secret" ]} (dumps_of "record")
             (loads_of "" VNone) provider_down (fun p => p) (fun _ => "data")
             (fun _ => "error") ["generate_embeddings.py"; "in.txt"]
             (written "in.txt" "hello world" empty_world)); [reflexivity|].
  simpl. lia.
Defined.

(** X21: exit status 0 means the record is there: when [main] exits with
    status 0, the input file named by the first argument existed and the
    file named by the second argument now holds the JSON text of a record
    whose metadata describe that input file. *)
Theorem main_success_record (environ : gmap string string)
    (json_dumps : option nat -> value -> string)
    (json_loads : string -> option value) (provider : request -> reply)
    (path_str : string -> string) (py_repr : value -> string)
    (str_builtin : exn -> string) (argv : list string) (w : world) :
  fst (main environ json_dumps json_loads provider path_str py_repr str_builtin
         argv w) = 0%Z ->
  exists (text : string) (embedding : value) (n : nat),
    files w !! nth 1 argv "" = Some text
    /\ len embedding = Some n
    /\ files (snd (main environ json_dumps json_loads provider path_str py_repr
                     str_builtin argv w)) !! nth 2 argv ""
       = Some (json_dumps (Some 2)
                 (VDict (output_data environ embedding n
                           (Some (embed_metadata path_str (nth 1 argv "") text))))).
Proof.
  rewrite main_run.
  destruct argv as [|prog [|input_path [|output_path rest]]]; try done.
  rewrite embed_file_run. simpl nth.
  destruct (files w !! input_path) as [text|]; [|done].
  destruct (generate_embedding _ _ _ _ _ _ _) as [[embedding|e] w']; [|done].
  destruct (len embedding) as [n|] eqn:Hlen; [|done].
  intros _. exists text, embedding, n. split_and!; [done..|].
  simpl. apply lookup_insert_eq.
Qed.

Lemma main_success_record_witness :
  let environ : gmap string string := {[ "GEMINI_API_KEY" := "secret" ]} in
  let json_loads :=
    loads_of "reply"
      (VDict {[ "embedding" := VDict {[ "values" := vector [of_Z 1; of_Z 2] ]} ]}) in
  let argv := ["generate_embeddings.py"; "in.txt"; "out.json"] in
  let w := written "in.txt" "hello world" empty_world in
  let run := main environ (dumps_of "record") json_loads
               (fun _ => Response "reply") (fun p => p) (fun _ => "data")
               (fun _ => "error") argv w in
  exists (text : string) (embedding : value) (n : nat),
    files w !! "in.txt" = Some text
    /\ len embedding = Some n
    /\ files (snd run) !! "out.json"
       = Some (dumps_of "record" (Some 2)
                 (VDict (output_data environ embedding n
                           (Some (embed_metadata (fun p => p) "in.txt" text))))).
Proof.
  intros environ json_loads argv w run.
  apply (main_success_record environ (dumps_of "record") json_loads
           (fun _ => Response "reply") (fun p => p) (fun _ => "data")
           (fun _ => "error") argv w).
  reflexivity.
Defined.

(** X22: [main] exits with status 0 or 1, and a run that exits with
    status 1 has written no file. *)
Theorem main_failure_writes_nothing (environ : gmap string string)
    (json_dumps : option nat -> value -> string)
    (json_loads : string -> option value) (provider : request -> reply)
    (path_str : string -> string) (py_repr : value -> string)
    (str_builtin : exn -> string) (argv : list string) (w : world) :
  let run := main environ json_dumps json_loads provider path_str py_repr
               str_builtin argv w in
  fst run = 0%Z \/ (fst run = 1%Z /\ files (snd run) = files w).
Proof.
  rewrite main_run.
  destruct argv as [|prog [|input_path [|output_path rest]]];
    try (by right).
  pose proof (embed_file_raise_files environ json_dumps json_loads provider
                path_str input_path output_path
                (match rest with t :: _ => t | [] => "RETRIEVAL_DOCUMENT" end) w)
    as Hfiles.
  destruct (embed_file _ _ _ _ _ _ _ _ _) as [[[]|e] w']; [by left|].
  right. split; [done|]. simpl. by apply (Hfiles e).
Qed.

(** X23: a provider error reaches the user.  When the input file exists,
    the key is set and the provider answers the request with an HTTP
    error, [main] exits with status 1, writes no file, and its last line
    on [sys.stderr] names the status code and the body of the answer. *)
Theorem main_http_error (environ : gmap string string)
    (json_dumps : option nat -> value -> string)
    (json_loads : string -> option value) (provider : request -> reply)
    (path_str : string -> string) (py_repr : value -> string)
    (str_builtin : exn -> string)
    (prog input_path output_path text key : string) (code : Z)
    (error_text : string) (w : world) :
  files w !! input_path = Some text ->
  environ !! "GEMINI_API_KEY" = Some key -> key ≠ "" ->
  provider (embed_request environ json_dumps key text "RETRIEVAL_DOCUMENT")
  = HTTPError code error_text ->
  main environ json_dumps json_loads provider path_str py_repr str_builtin
    [prog; input_path; output_path] w
  = (1%Z,
     {| files := files w;
        requests := requests w
                    ++ [embed_request environ json_dumps key text "RETRIEVAL_DOCUMENT"];
        stderr := stderr w
                  ++ ["Generating embedding for " +:+ input_path +:+ "...";
                      "Error: Embedding API error: HTTP " +:+ pretty code
                      +:+ " - " +:+ error_text] |}).
Proof.
  intros Hfile Hkey Hne Hreply. rewrite main_run, embed_file_run, Hfile.
  rewrite (generate_embedding_run _ _ _ _ _ _ _ _ Hkey Hne), Hreply. simpl.
  unfold printed, sent. simpl. by rewrite <- app_assoc.
Qed.

Lemma main_http_error_witness :
  stderr (snd (main {[ "GEMINI_API_KEY" := "secret" ]} (dumps_of "body")
                 (loads_of "" VNone) (fun _ => HTTPError 429 "rate limited")
                 (fun p => p) (fun _ => "data") (fun _ => "error")
                 ["generate_embeddings.py"; "in.txt"; "out.json"]
                 (written "in.txt" "hello world" empty_world)))
  = ["Generating embedding for in.txt...";
     "Error: Embedding API error: HTTP 429 - rate limited"].
Proof.
  rewrite (main_http_error {[ "GEMINI_API_KEY" := "secret" ]} (dumps_of "body")
             (loads_of "" VNone) (fun _ => HTTPError 429 "rate limited")
             (fun p => p) (fun _ => "data") (fun _ => "error")
             "generate_embeddings.py" "in.txt" "out.json" "hello world" "secret"
             429 "rate limited" (written "in.txt" "hello world" empty_world));
    [reflexivity | reflexivity | reflexivity | discriminate | reflexivity].
Defined.

(** * A further property of the similarity on Python floats *)

Section NaN.
Implicit Types (a b : list float) (x y : float).

Lemma fold_left_add_nan a : fold_left num_add a S754_nan = S754_nan.
Proof. induction a as [|x a IH]; simpl; [done|]. exact IH. Qed.

Lemma fold_left_add_nan_term a x :
  In S754_nan a -> fold_left num_add a x = S754_nan.
Proof.
  revert x. induction a as [|y a IH]; intros x; simpl; [done|].
  intros [-> | Hin].
  - replace (SFadd prec emax x S754_nan) with S754_nan by (by destruct x).
    apply fold_left_add_nan.
  - by apply IH.
Qed.

(** One [nan] entry makes the computed norm [nan]. *)
Lemma magnitude_nan a : In S754_nan a -> magnitude a = S754_nan.
Proof.
  intros Hin. unfold magnitude, sum.
  rewrite fold_left_add_nan_term; [done|].
  apply in_map_iff. by exists S754_nan.
Qed.
End NaN.

(** X26: a [nan] entry is not an error.  For vectors of equal length, when
    the first one holds a [nan], [cosine_similarity] returns [nan], unless
    the norm computed for the second one is zero: then it returns [0.0]. *)
Theorem cosine_similarity_nan (a b : list float) :
  length a = length b -> In S754_nan a ->
  cosine_similarity a b
  = Ok (if num_eq_zero (magnitude b) then S754_zero false else S754_nan).
Proof.
  intros Hlen Hnan. rewrite cosine_similarity_same_length by done.
  rewrite (magnitude_nan a Hnan).
  change (num_eq_zero S754_nan) with false. rewrite orb_false_l.
  destruct (num_eq_zero (magnitude b)); [done|].
  change (num_mul S754_nan (magnitude b)) with S754_nan.
  unfold truediv. change (num_eq_zero S754_nan) with false. cbv iota.
  f_equal. generalize (sum (map (fun '(x, y) => num_mul x y) (zip a b))).
  by intros [| | |].
Qed.

Lemma cosine_similarity_nan_witness :
  cosine_similarity [of_Z 1; S754_nan] [of_Z 1; of_Z 2] = Ok S754_nan.
Proof.
  apply (cosine_similarity_nan [of_Z 1; S754_nan] [of_Z 1; of_Z 2]).
  - reflexivity.
  - right. left. reflexivity.
Defined.
